(** * RandomVectorDataset: the custom dataset of the PyTorch datasets notebook

    A shallow embedding of the classes defined in
    [notebooks/class/2_work_with_pytorch_datasets.ipynb]:
    [RandomVectorDataset], [Add2] and [ToTorchTensor], together with the
    parts of NumPy, PyTorch and torchvision they call
    ([np.random.randn], integer indexing of an [ndarray],
    [torch.from_numpy], [Compose]).

    NumPy arrays are references into a store of buffers: indexing an
    array of two or more dimensions yields a view that shares the
    buffer, and [torch.from_numpy] shares it as well.  Python code runs
    in a state-and-exception monad over that store. *)

From Stdlib Require Import ZArith Lia.
From Stdlib Require Import PrimFloat.
From stdpp Require Import gmap strings list fin_maps.

Open Scope Z_scope.

(** ** Python exceptions and the evaluation monad *)

Inductive exn : Type :=
| IndexError
| KeyError
| TypeError
| AttributeError
| ValueError.

Inductive result (A : Type) : Type :=
| Ok (a : A)
| Raise (e : exn).
Arguments Ok {A} a.
Arguments Raise {A} e.

(** The store: every array buffer ever allocated (float64 elements, in
    allocation order), and the stream of numbers the global NumPy random
    generator is still to produce. *)
Record world : Type := World {
  heap : list (list float);
  rng : nat -> float
}.

(** A Python computation: an exception leaves the store as it was when
    the exception was raised. *)
Definition M (A : Type) : Type := world -> result A * world.

Definition ret {A} (a : A) : M A := fun w => (Ok a, w).
Definition raise {A} (e : exn) : M A := fun w => (Raise e, w).
Definition bind {A B} (m : M A) (k : A -> M B) : M B :=
  fun w => match m w with
           | (Ok a, w') => k a w'
           | (Raise e, w') => (Raise e, w')
           end.

Declare Scope py_scope.
Delimit Scope py_scope with py.
Notation "x <- c1 ;; c2" := (bind c1 (fun x => c2))
  (at level 100, c1 at next level, right associativity) : py_scope.

(** ** Values *)

(** A C-contiguous array (or tensor): a window on a buffer of the store. *)
Record ndarray : Type := NdArray {
  base : nat;
  offset : nat;
  shape : list nat
}.

Inductive value : Type :=
| VPyFloat (x : float)      (* a Python float *)
| VFloat64 (x : float)      (* a NumPy scalar, numpy.float64 *)
| VArray (a : ndarray)      (* numpy.ndarray, dtype float64 *)
| VTensor (a : ndarray).    (* torch.Tensor, dtype float64 *)

(** A sample is a Python dict with string keys. *)
Abbreviation sample := (gmap string value).

(** A transform is a callable from a sample to a sample. *)
Abbreviation callable := (gmap string value -> M (gmap string value)).

Definition numel (sh : list nat) : nat := foldr Nat.mul 1%nat sh.

Definition buffer (h : list (list float)) (l : nat) : list float :=
  default [] (h !! l).

(** The elements an array shows, in row-major order. *)
Definition read_array (h : list (list float)) (a : ndarray) : list float :=
  take (numel (shape a)) (drop (offset a) (buffer h (base a))).

(** One element of a buffer.  Arrays made by [randn] and their rows
    always lie inside their buffer; outside of it the model reads zero. *)
Definition read_elem (h : list (list float)) (l i : nat) : float :=
  default 0%float (buffer h l !! i).

(** A fresh array holding [xs]. *)
Definition new_array (sh : list nat) (xs : list float) : M ndarray :=
  fun w => (Ok (NdArray (length (heap w)) 0 sh),
            World (heap w ++ [xs]) (rng w)).

(** ** The NumPy and PyTorch operations the notebook calls *)

Module np.

(** [np.random.randn] on the unpacked [random_shape]: with no dimension
    a single Python float; a negative dimension is refused; otherwise a
    fresh array filled with the next numbers of the generator. *)
Definition randn (random_shape : list Z) : M value :=
  match random_shape with
  | [] =>
      fun w => (Ok (VPyFloat (rng w 0%nat)),
                World (heap w) (fun k => rng w (S k)))
  | _ :: _ =>
      if decide (Forall (fun d => 0 <= d) random_shape)
      then
        let sh := map Z.to_nat random_shape in
        fun w =>
          (Ok (VArray (NdArray (length (heap w)) 0 sh)),
           World (heap w ++ [map (rng w) (seq 0 (numel sh))])
                 (fun k => rng w (numel sh + k)%nat))
      else raise ValueError
  end.

(** [v.shape[0]]. *)
Definition shape0 (v : value) : M Z :=
  match v with
  | VArray a | VTensor a =>
      match shape a with
      | n :: _ => ret (Z.of_nat n)
      | [] => raise IndexError
      end
  | VFloat64 _ => raise IndexError
  | VPyFloat _ => raise AttributeError
  end.

(** [v[idx]] for a Python integer [idx]: an index in [-n, n) selects
    row [idx mod n], any other raises IndexError.  A row of an array of
    two or more dimensions is a view on the same buffer; an element of
    a one-dimensional array is a scalar. *)
Definition getitem (v : value) (idx : Z) : M value :=
  match v with
  | VArray a =>
      match shape a with
      | n :: rest =>
          if decide (- Z.of_nat n <= idx < Z.of_nat n)
          then
            let i := Z.to_nat (idx mod Z.of_nat n) in
            match rest with
            | [] =>
                fun w => (Ok (VFloat64 (read_elem (heap w) (base a) (offset a + i))), w)
            | _ :: _ =>
                ret (VArray (NdArray (base a) (offset a + i * numel rest) rest))
            end
          else raise IndexError
      | [] => raise IndexError
      end
  | VTensor a =>
      match shape a with
      | n :: rest =>
          if decide (- Z.of_nat n <= idx < Z.of_nat n)
          then
            let i := Z.to_nat (idx mod Z.of_nat n) in
            ret (VTensor (NdArray (base a) (offset a + i * numel rest) rest))
          else raise IndexError
      | [] => raise IndexError
      end
  | VFloat64 _ => raise IndexError
  | VPyFloat _ => raise TypeError
  end.

(** [v + c] for a Python number [c]: arrays and tensors are added
    elementwise into a fresh buffer; the sum of a zero-dimensional
    array is a NumPy scalar, not an array. *)
Definition add (v : value) (c : float) : M value :=
  match v with
  | VPyFloat x => ret (VPyFloat (x + c))
  | VFloat64 x => ret (VFloat64 (x + c))
  | VArray a =>
      match shape a with
      | [] =>
          fun w => (Ok (VFloat64 (read_elem (heap w) (base a) (offset a) + c)), w)
      | _ :: _ =>
          fun w => (a' <- new_array (shape a)
                            (map (fun x => x + c)%float (read_array (heap w) a)) ;;
                    ret (VArray a'))%py w
      end
  | VTensor a =>
      fun w => (a' <- new_array (shape a)
                        (map (fun x => x + c)%float (read_array (heap w) a)) ;;
                ret (VTensor a'))%py w
  end.

End np.

Module torch.

(** [torch.from_numpy(v)]: only an ndarray is accepted, anything else
    raises TypeError; the tensor shares the array's memory.  The arrays
    of this model are contiguous float64 arrays in native byte order,
    the only ones [randn] and integer indexing produce, and those are
    accepted; an array with a negative stride or a foreign byte order,
    which the real function refuses with ValueError, has no
    counterpart here. *)
Definition from_numpy (v : value) : M value :=
  match v with
  | VArray a => ret (VTensor a)
  | _ => raise TypeError
  end.

End torch.

(** [d[key]] on a dict. *)
Definition dict_get (d : gmap string value) (key : string) : M value :=
  match d !! key with
  | Some v => ret v
  | None => raise KeyError
  end.

(** ** The classes of the notebook *)

(** [torch.utils.data.Dataset]: the two methods a dataset overrides,
    and all that a [DataLoader] asks of it. *)
Class Dataset (T : Type) : Type := {
  len : T -> M Z;
  getitem : T -> Z -> M (gmap string value)
}.

Module RandomVectorDataset.

(** The attributes [__init__] sets.  [transform] is [None] or a
    callable object, which Python counts as true. *)
Record t : Type := Build {
  raw_data : value;
  transform : option callable
}.

Definition __init__ (random_shape : list Z) (transform : option callable) : M t :=
  (raw <- np.randn random_shape ;;
   ret (Build raw transform))%py.

Definition __len__ (self : t) : M Z :=
  np.shape0 (raw_data self).

Definition __getitem__ (self : t) (idx : Z) : M (gmap string value) :=
  (row <- np.getitem (raw_data self) idx ;;
   let sample : gmap string value := {[ "random_vector"%string := row ]} in
   match transform self with
   | Some f => f sample
   | None => ret sample
   end)%py.

End RandomVectorDataset.

#[export] Instance RandomVectorDataset_Dataset : Dataset RandomVectorDataset.t := {|
  len := RandomVectorDataset.__len__;
  getitem := RandomVectorDataset.__getitem__
|}.

Module Add2.

Definition __call__ (sample : gmap string value) : M (gmap string value) :=
  (v <- dict_get sample "random_vector" ;;
   v' <- np.add v 2%float ;;
   ret ({[ "random_vector"%string := v' ]} : gmap string value))%py.

End Add2.

Module ToTorchTensor.

Definition __call__ (sample : gmap string value) : M (gmap string value) :=
  (v <- dict_get sample "random_vector" ;;
   v' <- torch.from_numpy v ;;
   ret ({[ "random_vector"%string := v' ]} : gmap string value))%py.

End ToTorchTensor.

Module Compose.

(** [torchvision.transforms.Compose(transforms)]; its [__call__] is
    [for t in self.transforms: img = t(img)] followed by [return img]. *)
Fixpoint __call__ (transforms : list callable) (img : gmap string value)
  : M (gmap string value) :=
  match transforms with
  | [] => ret img
  | f :: rest => (img' <- f img ;; __call__ rest img')%py
  end.

End Compose.

(** The pipeline the notebook builds: [Compose([Add2(), ToTorchTensor()])]. *)
Definition transformations : callable :=
  Compose.__call__ [Add2.__call__; ToTorchTensor.__call__].

(** ** What a value shows: contents read through the store *)

Inductive cvalue : Type :=
| CPyFloat (x : float)
| CFloat64 (x : float)
| CArray (sh : list nat) (xs : list float)
| CTensor (sh : list nat) (xs : list float).

Definition contents (h : list (list float)) (v : value) : cvalue :=
  match v with
  | VPyFloat x => CPyFloat x
  | VFloat64 x => CFloat64 x
  | VArray a => CArray (shape a) (read_array h a)
  | VTensor a => CTensor (shape a) (read_array h a)
  end.

Definition sample_contents (h : list (list float)) (s : gmap string value)
  : gmap string cvalue :=
  contents h <$> s.

(** What a call shows to its caller: the sample as it reads when the
    call returns, or the exception. *)
Definition outcome (r : result (gmap string value) * world)
  : result (gmap string cvalue) :=
  match r with
  | (Ok s, w) => Ok (sample_contents (heap w) s)
  | (Raise e, _) => Raise e
  end.

(** Row [i] of an array of shape [n :: rest], cut from its elements. *)
Definition row (rest : list nat) (i : nat) (xs : list float) : list float :=
  take (numel rest) (drop (i * numel rest) xs).

(** What indexing shows of row [xs] of an array of shape [n :: rest]:
    a scalar when no dimension is left, an array of shape [rest]
    otherwise. *)
Definition row_value (rest : list nat) (xs : list float) : cvalue :=
  match rest with
  | [] => CFloat64 (default 0%float (head xs))
  | _ :: _ => CArray rest xs
  end.


(** ** Properties of transforms *)

(** A transform that writes to no buffer it did not allocate itself. *)
Definition read_only (f : callable) : Prop :=
  forall s w, heap w `prefix_of` heap (f s w).2.

(** A transform whose outcome is a function of what its argument shows. *)
Definition deterministic (f : callable) : Prop :=
  forall s s' w w',
    sample_contents (heap w) s = sample_contents (heap w') s' ->
    outcome (f s w) = outcome (f s' w').

(** ** The life of a dataset object: a sequence of calls *)

Inductive call : Type :=
| Size
| Get (idx : Z).

(** A call goes through the object's methods; no method of the class
    assigns an attribute, so the object is handed on as it is. *)
Definition step {T : Type} `{Dataset T} (c : call) (st : T * world) : T * world :=
  match c with
  | Size => (st.1, (len st.1 st.2).2)
  | Get idx => (st.1, (getitem st.1 idx st.2).2)
  end.

Definition run {T : Type} `{Dataset T} (cs : list call) (st : T * world) : T * world :=
  foldl (fun st c => step c st) st cs.

(** A transform outside the notebook, [sample['random_vector'] += 2]
    followed by [return sample]: it adds in place, through the view it
    was handed. *)
Module InPlaceAdd2.

Definition iadd (a : ndarray) (c : float) : M unit :=
  fun w =>
    let buf := buffer (heap w) (base a) in
    let buf' := take (offset a) buf
                ++ map (fun x => x + c)%float (read_array (heap w) a)
                ++ drop (offset a + numel (shape a)) buf in
    (Ok tt, World (<[base a := buf']> (heap w)) (rng w)).

Definition __call__ (sample : gmap string value) : M (gmap string value) :=
  (v <- dict_get sample "random_vector" ;;
   match v with
   | VArray a | VTensor a => (_ <- iadd a 2%float ;; ret sample)
   | VPyFloat x => ret (<["random_vector"%string := VPyFloat (x + 2)]> sample)
   | VFloat64 x => ret (<["random_vector"%string := VFloat64 (x + 2)]> sample)
   end)%py.

End InPlaceAdd2.

(** Another transform outside the notebook,
    [sample['random_vector'] += 2] followed by
    [return {'random_vector': sample['random_vector']}]: it adds in
    place as well, and hands back that one entry. *)
Module Add2InPlace.

Definition __call__ (sample : gmap string value) : M (gmap string value) :=
  (v <- dict_get sample "random_vector" ;;
   match v with
   | VArray a | VTensor a =>
       (_ <- InPlaceAdd2.iadd a 2%float ;;
        ret ({[ "random_vector"%string := v ]} : gmap string value))
   | VPyFloat x => ret ({[ "random_vector"%string := VPyFloat (x + 2) ]} : gmap string value)
   | VFloat64 x => ret ({[ "random_vector"%string := VFloat64 (x + 2) ]} : gmap string value)
   end)%py.

End Add2InPlace.

(** The elements a value shows, flattened. *)
Definition shown (c : cvalue) : list float :=
  match c with
  | CPyFloat x | CFloat64 x => [x]
  | CArray _ xs | CTensor _ xs => xs
  end.

(** The elements a call handed to its caller under "random_vector";
    none when it raised. *)
Definition shown_by (r : result (gmap string cvalue)) : list float :=
  match r with
  | Ok m => match m !! "random_vector"%string with
            | Some c => shown c
            | None => []
            end
  | Raise _ => []
  end.

(** What a value shows once 2 is added to it: every element two more,
    in the same kind and shape, but for a zero-dimensional array, whose
    sum is a NumPy scalar. *)
Definition plus2 (c : cvalue) : cvalue :=
  match c with
  | CPyFloat x => CPyFloat (x + 2)
  | CFloat64 x => CFloat64 (x + 2)
  | CArray [] xs => CFloat64 (default 0%float (head xs) + 2)
  | CArray (d :: sh) xs => CArray (d :: sh) (map (fun x => x + 2)%float xs)
  | CTensor sh xs => CTensor sh (map (fun x => x + 2)%float xs)
  end.

(** Concrete stores for the examples. *)
Definition zeros : nat -> float := fun _ => 0%float.
Fixpoint counting (k : nat) : float :=
  match k with
  | O => 0%float
  | S k' => (counting k' + 1)%float
  end.
Definition w_init : world := World [] zeros.

(** * Properties *)

Import RandomVectorDataset.

(** A shape of non-negative literals. *)
Ltac shape_ok := repeat constructor; lia.

Create HintDb transform.

(** ** Construction *)

Lemma randn_array (d : Z) (ds : list Z) (w : world) :
  Forall (fun x => 0 <= x) (d :: ds) ->
  np.randn (d :: ds) w =
  (Ok (VArray (NdArray (length (heap w)) 0 (map Z.to_nat (d :: ds)))),
   World (heap w ++ [map (rng w) (seq 0 (numel (map Z.to_nat (d :: ds))))])
         (fun k => rng w (numel (map Z.to_nat (d :: ds)) + k)%nat)).
Proof.
  intros Hpos. unfold np.randn.
  destruct (decide (Forall (fun x => 0 <= x) (d :: ds))) as [_ | Hneg].
  - reflexivity.
  - contradiction.
Qed.

Lemma init_array (d : Z) (ds : list Z) (tr : option callable) (w : world) :
  Forall (fun x => 0 <= x) (d :: ds) ->
  __init__ (d :: ds) tr w =
  (Ok (Build (VArray (NdArray (length (heap w)) 0 (map Z.to_nat (d :: ds)))) tr),
   World (heap w ++ [map (rng w) (seq 0 (numel (map Z.to_nat (d :: ds))))])
         (fun k => rng w (numel (map Z.to_nat (d :: ds)) + k)%nat)).
Proof.
  intros Hpos. unfold __init__, bind. rewrite (randn_array _ _ _ Hpos).
  reflexivity.
Qed.

(** The size of a dataset, whenever [__len__] answers, is the leading
    dimension of an array or tensor. *)
Lemma len_inv (self : RandomVectorDataset.t) (w w' : world) (n : Z) :
  __len__ self w = (Ok n, w') ->
  exists a m rest,
    (raw_data self = VArray a \/ raw_data self = VTensor a) /\
    shape a = m :: rest /\ n = Z.of_nat m /\ w' = w.
Proof.
  unfold __len__, np.shape0, ret, raise.
  destruct (raw_data self) as [x | x | a | a]; try discriminate;
    destruct (shape a) as [| m rest] eqn:Hsh; try discriminate;
    intros [= <- <-]; exists a, m, rest; auto.
Qed.

(** ** Reading through the store *)

Lemma buffer_fresh (h : list (list float)) (buf : list float) :
  buffer (h ++ [buf]) (length h) = buf.
Proof.
  unfold buffer. rewrite lookup_app_r by lia.
  rewrite Nat.sub_diag. reflexivity.
Qed.

Lemma buffer_prefix (h h' : list (list float)) (l : nat) :
  h `prefix_of` h' -> (l < length h)%nat -> buffer h' l = buffer h l.
Proof.
  intros [k ->] Hl. unfold buffer. rewrite lookup_app_l by exact Hl.
  reflexivity.
Qed.

(** A fresh array shows the elements it was filled with. *)
Lemma read_array_fresh_take (h : list (list float)) (sh : list nat) (xs : list float) :
  read_array (h ++ [xs]) (NdArray (length h) 0 sh) = take (numel sh) xs.
Proof.
  unfold read_array. cbn [base offset shape].
  rewrite buffer_fresh, drop_0. reflexivity.
Qed.

Lemma read_array_fresh (h : list (list float)) (sh : list nat) (xs : list float) :
  length xs = numel sh ->
  read_array (h ++ [xs]) (NdArray (length h) 0 sh) = xs.
Proof.
  intros Hlen. rewrite read_array_fresh_take. apply take_ge. lia.
Qed.

(** Later allocations do not change what an allocated array shows. *)
Lemma read_array_prefix (h h' : list (list float)) (a : ndarray) :
  h `prefix_of` h' -> (base a < length h)%nat ->
  read_array h' a = read_array h a.
Proof.
  intros Hpre Hl. unfold read_array. rewrite (buffer_prefix h h') by assumption.
  reflexivity.
Qed.


(** The one element a zero-dimensional array shows. *)
Lemma read_elem_head (h : list (list float)) (a : ndarray) :
  shape a = [] ->
  read_elem h (base a) (offset a) = default 0%float (head (read_array h a)).
Proof.
  intros Hsh. unfold read_elem, read_array. rewrite Hsh. cbn [numel foldr].
  rewrite head_lookup, lookup_take_lt, lookup_drop, Nat.add_0_r by lia.
  reflexivity.
Qed.

(** The view that indexing returns shows row [i] of the array. *)
Lemma read_row_view (h : list (list float)) (b o n i : nat) (rest : list nat) :
  (i < n)%nat ->
  read_array h (NdArray b (o + i * numel rest) rest) =
  row rest i (read_array h (NdArray b o (n :: rest))).
Proof.
  intros Hi. unfold read_array, row. cbn [base offset shape numel foldr].
  fold (numel rest).
  rewrite (take_drop_commute _ (numel rest) (i * numel rest)).
  rewrite take_take, Nat.min_l by nia.
  rewrite <- take_drop_commute, drop_drop. reflexivity.
Qed.

(** The scalar that indexing returns is element [i] of the array. *)
Lemma read_elem_row (h : list (list float)) (b o n i : nat) :
  (i < n)%nat ->
  (o + n <= length (buffer h b))%nat ->
  read_elem h b (o + i) =
  default 0%float (head (row [] i (read_array h (NdArray b o [n])))).
Proof.
  intros Hi Hlen. unfold read_elem, read_array, row.
  cbn [base offset shape numel foldr].
  rewrite !Nat.mul_1_r.
  rewrite <- (lookup_drop (buffer h b) o i).
  set (xs := drop o (buffer h b)).
  assert (Hxs : (n <= length xs)%nat) by (subst xs; rewrite length_drop; lia).
  destruct (lookup_lt_is_Some_2 xs i ltac:(lia)) as [x Hx].
  rewrite Hx. cbn [default].
  rewrite (drop_S (take n xs) x i) by (rewrite lookup_take_lt by lia; exact Hx).
  reflexivity.
Qed.

(** Inside [-n, n) the lookup on an array answers with row [idx mod n]. *)
Lemma getitem_array_inside (a : ndarray) (m : nat) (rest : list nat) (idx : Z) (w : world) :
  shape a = m :: rest ->
  - Z.of_nat m <= idx < Z.of_nat m ->
  np.getitem (VArray a) idx w =
  (Ok (match rest with
       | [] => VFloat64 (read_elem (heap w) (base a)
                                   (offset a + Z.to_nat (idx mod Z.of_nat m)))
       | _ :: _ => VArray (NdArray (base a)
                                   (offset a + Z.to_nat (idx mod Z.of_nat m) * numel rest)
                                   rest)
       end), w).
Proof.
  intros Hsh Hin. unfold np.getitem. rewrite Hsh.
  destruct (decide (- Z.of_nat m <= idx < Z.of_nat m)) as [_ | Hout]; [| lia].
  destruct rest; reflexivity.
Qed.

(** Outside [-n, n) the lookup on an array or tensor raises. *)
Lemma np_getitem_outside (v : value) (a : ndarray) (m : nat) (rest : list nat)
      (idx : Z) (w : world) :
  v = VArray a \/ v = VTensor a ->
  shape a = m :: rest ->
  idx < - Z.of_nat m \/ Z.of_nat m <= idx ->
  np.getitem v idx w = (Raise IndexError, w).
Proof.
  intros Hv Hsh Hout. unfold np.getitem.
  destruct Hv as [-> | ->]; rewrite Hsh;
    (destruct (decide (- Z.of_nat m <= idx < Z.of_nat m)) as [Hin | _];
     [lia | reflexivity]).
Qed.

(** ** Size *)

(** C4: a source built with shape [n, ...] reports size n, the leading
    dimension of the stored array, in whatever store it is asked; built
    with shape [10, 5] it has size 10 and [get 5] returns a sample whose
    array has shape [5], for both datasets of the notebook (without
    transform, and with the pipeline, where the array is a tensor). *)
Theorem size_is_leading_dimension :
  (forall (n : Z) (rest : list Z) (tr : option callable) (w0 : world),
      Forall (fun d => 0 <= d) (n :: rest) ->
      exists self w,
        __init__ (n :: rest) tr w0 = (Ok self, w) /\
        (exists a, raw_data self = VArray a /\
                   head (shape a) = Some (Z.to_nat n)) /\
        forall w', __len__ self w' = (Ok n, w')) /\
  (forall w0 : world,
      exists self w a,
        __init__ [10; 5] None w0 = (Ok self, w) /\
        __len__ self w = (Ok 10, w) /\
        __getitem__ self 5 w = (Ok {[ "random_vector"%string := VArray a ]}, w) /\
        shape a = [5%nat]) /\
  (forall w0 : world,
      exists self w w' a,
        __init__ [10; 5] (Some transformations) w0 = (Ok self, w) /\
        __len__ self w = (Ok 10, w) /\
        __getitem__ self 5 w = (Ok {[ "random_vector"%string := VTensor a ]}, w') /\
        shape a = [5%nat]).
Proof.
  split.
  - intros n rest tr w0 Hpos.
    eexists _, _. split; [apply init_array; exact Hpos |].
    split.
    + eexists. split; [reflexivity |]. reflexivity.
    + intros w'. unfold __len__, np.shape0, ret. cbn.
      rewrite Z2Nat.id; [reflexivity |].
      apply (Forall_inv Hpos).
  - split.
    + intros w0. eexists _, _, _.
      split; [apply init_array; shape_ok |].
      split; [reflexivity |].
      split; reflexivity.
    + intros w0. eexists _, _, _, _.
      split; [apply init_array; shape_ok |].
      split; [reflexivity |].
      unfold __getitem__, bind. cbn [raw_data transform].
      rewrite (getitem_array_inside _ 10 [5%nat]) by (reflexivity || lia).
      unfold transformations. cbn [Compose.__call__].
      unfold Add2.__call__, ToTorchTensor.__call__, dict_get, bind.
      rewrite lookup_singleton_eq. unfold ret at 1. cbn [np.add shape].
      unfold bind, new_array, ret. rewrite lookup_singleton_eq.
      cbn [torch.from_numpy]. unfold ret.
      split; reflexivity.
Qed.

Lemma size_is_leading_dimension_witness :
  exists self w,
    __init__ [3; 2] (Some transformations) w_init = (Ok self, w) /\
    (exists a, raw_data self = VArray a /\ head (shape a) = Some (Z.to_nat 3)) /\
    forall w', __len__ self w' = (Ok 3, w').
Proof.
  apply (proj1 size_is_leading_dimension 3 [2] (Some transformations) w_init).
  shape_ok.
Defined.

(** C8: a source built with leading dimension 0 reports size 0, and
    [get] raises for every index. *)
Theorem empty_dataset (rest : list Z) (tr : option callable) (w0 : world) :
  Forall (fun d => 0 <= d) rest ->
  exists self w,
    __init__ (0 :: rest) tr w0 = (Ok self, w) /\
    (forall w', __len__ self w' = (Ok 0, w')) /\
    (forall idx w', __getitem__ self idx w' = (Raise IndexError, w')).
Proof.
  intros Hpos.
  assert (Hall : Forall (fun d => 0 <= d) (0 :: rest)) by (constructor; [lia | exact Hpos]).
  eexists _, _. split; [apply init_array; exact Hall |].
  split.
  - intros w'. reflexivity.
  - intros idx w'. unfold __getitem__, bind. cbn [raw_data map].
    erewrite (np_getitem_outside _ _ 0%nat (map Z.to_nat rest) idx w');
      [reflexivity | left; reflexivity | reflexivity | cbn; lia].
Qed.

Lemma empty_dataset_witness :
  exists self w,
    __init__ [0; 5] (Some transformations) w_init = (Ok self, w) /\
    (forall w', __len__ self w' = (Ok 0, w')) /\
    (forall idx w', __getitem__ self idx w' = (Raise IndexError, w')).
Proof.
  apply (empty_dataset [5] (Some transformations) w_init).
  shape_ok.
Defined.

(** ** Index range *)

(** C1, as the code has it: for every source and every index i with
    i < -size() or i >= size(), [get i] raises IndexError; the store is
    untouched and no transform is run. *)
Theorem getitem_out_of_range (self : RandomVectorDataset.t) (n : Z) (w0 w0' : world) :
  __len__ self w0 = (Ok n, w0') ->
  forall (idx : Z) (w : world),
    idx < - n \/ n <= idx ->
    __getitem__ self idx w = (Raise IndexError, w).
Proof.
  intros Hlen idx w Hout.
  destruct (len_inv _ _ _ _ Hlen) as (a & m & rest & Hraw & Hsh & -> & _).
  unfold __getitem__, bind.
  rewrite (np_getitem_outside (raw_data self) a m rest idx w Hraw Hsh Hout).
  reflexivity.
Qed.

Lemma getitem_out_of_range_witness :
  exists self w,
    __init__ [10; 5] (Some transformations) w_init = (Ok self, w) /\
    __len__ self w = (Ok 10, w) /\
    __getitem__ self 10 w = (Raise IndexError, w) /\
    __getitem__ self (-11) w = (Raise IndexError, w).
Proof.
  eexists _, _.
  split; [apply init_array; shape_ok |].
  split; [reflexivity |].
  split; apply (getitem_out_of_range _ 10 w_init w_init);
    first [reflexivity | lia].
Defined.

(** C1 as written fails: index -1 is below 0, yet the source of shape
    [10, 5] answers it with a sample, so it is not true that every
    index below 0 raises. *)
Lemma negative_index_is_served :
  (exists self w s,
      __init__ [10; 5] None w_init = (Ok self, w) /\
      __len__ self w = (Ok 10, w) /\
      __getitem__ self (-1) w = (Ok s, w)) /\
  ~ (forall (random_shape : list Z) (tr : option callable) (w0 w : world)
            (self : RandomVectorDataset.t) (n idx : Z),
        __init__ random_shape tr w0 = (Ok self, w) ->
        __len__ self w = (Ok n, w) ->
        idx < 0 \/ n <= idx ->
        exists w', __getitem__ self idx w = (Raise IndexError, w')).
Proof.
  assert (Hpos : Forall (fun d => 0 <= d) [10; 5]) by shape_ok.
  split.
  - eexists _, _, _. split; [apply (init_array 10 [5] None w_init Hpos) |].
    split; reflexivity.
  - intros Hclaim.
    destruct (Hclaim [10; 5] None w_init _ _ 10 (-1)
                     (init_array 10 [5] None w_init Hpos)) as [w' Hget].
    + reflexivity.
    + lia.
    + discriminate Hget.
Qed.

(** C10, as the code has it: with size n and -n <= i < 0 the lookup does
    not raise; it yields the row that index n + i yields, so [get i] and
    [get (n + i)] have the same outcome in the same store, and with no
    transform configured that outcome is a sample. *)
Theorem negative_index_wraps (self : RandomVectorDataset.t) (n : Z) (w0 w0' : world) :
  __len__ self w0 = (Ok n, w0') ->
  forall (idx : Z) (w : world),
    - n <= idx < 0 ->
    (exists r,
        np.getitem (raw_data self) idx w = (Ok r, w) /\
        np.getitem (raw_data self) (n + idx) w = (Ok r, w)) /\
    __getitem__ self idx w = __getitem__ self (n + idx) w /\
    (transform self = None -> exists s, __getitem__ self idx w = (Ok s, w)).
Proof.
  intros Hlen idx w Hidx.
  destruct (len_inv _ _ _ _ Hlen) as (a & m & rest & Hraw & Hsh & -> & _).
  assert (Hmod : (Z.of_nat m + idx) mod Z.of_nat m = idx mod Z.of_nat m).
  { replace (Z.of_nat m + idx) with (idx + 1 * Z.of_nat m) by lia.
    apply Z_mod_plus_full. }
  assert (Hrow : exists r,
             np.getitem (raw_data self) idx w = (Ok r, w) /\
             np.getitem (raw_data self) (Z.of_nat m + idx) w = (Ok r, w)).
  { unfold np.getitem.
    destruct Hraw as [-> | ->]; rewrite Hsh;
      (destruct (decide (- Z.of_nat m <= idx < Z.of_nat m)); [| lia]);
      (destruct (decide (- Z.of_nat m <= Z.of_nat m + idx < Z.of_nat m)); [| lia]);
      rewrite Hmod; [destruct rest |]; eexists; split; reflexivity. }
  destruct Hrow as (r & Hr1 & Hr2).
  split; [exists r; auto |].
  split.
  - unfold __getitem__, bind. rewrite Hr1, Hr2. reflexivity.
  - intros Hnone. unfold __getitem__, bind. rewrite Hr1, Hnone.
    eexists. reflexivity.
Qed.

Lemma negative_index_wraps_witness :
  exists self w,
    __init__ [10; 5] (Some transformations) w_init = (Ok self, w) /\
    __getitem__ self (-3) w = __getitem__ self (10 + -3) w.
Proof.
  eexists _, _.
  split; [apply init_array; shape_ok |].
  apply (negative_index_wraps _ 10 w_init w_init); [reflexivity | lia].
Defined.

(** C10 as written fails where a transform raises: on a source of shape
    [3] with the notebook's pipeline, [get (-1)] raises TypeError, since a
    row of a one-dimensional array is a scalar and [torch.from_numpy]
    refuses it; so it is not true that every such [get] succeeds. *)
Lemma negative_index_may_still_fail :
  (exists self w,
      __init__ [3] (Some transformations) w_init = (Ok self, w) /\
      __len__ self w = (Ok 3, w) /\
      __getitem__ self (-1) w = (Raise TypeError, w)) /\
  ~ (forall (random_shape : list Z) (tr : option callable) (w0 w : world)
            (self : RandomVectorDataset.t) (n idx : Z),
        __init__ random_shape tr w0 = (Ok self, w) ->
        __len__ self w = (Ok n, w) ->
        0 < n -> - n <= idx < 0 ->
        exists s w',
          __getitem__ self idx w = (Ok s, w') /\
          __getitem__ self (n + idx) w = (Ok s, w')).
Proof.
  assert (Hpos : Forall (fun d => 0 <= d) [3]) by shape_ok.
  split.
  - eexists _, _.
    split; [apply (init_array 3 [] (Some transformations) w_init Hpos) |].
    split; reflexivity.
  - intros Hclaim.
    destruct (Hclaim [3] (Some transformations) w_init _ _ 3 (-1)
                     (init_array 3 [] (Some transformations) w_init Hpos))
      as (s & w' & Hget & _).
    + reflexivity.
    + lia.
    + lia.
    + discriminate Hget.
Qed.

(** ** Lookup without transforms *)

(** C2: a source built without transforms answers every index
    0 <= i < size() with a sample that maps "random_vector" to row i of
    the stored array, which holds the generated numbers; the store is
    left as it was. *)
Theorem getitem_without_transform (n : Z) (rest : list Z) (w0 : world) :
  Forall (fun d => 0 <= d) (n :: rest) ->
  exists self w a,
    __init__ (n :: rest) None w0 = (Ok self, w) /\
    raw_data self = VArray a /\
    forall (idx : Z) (w' : world),
      0 <= idx < n ->
      heap w `prefix_of` heap w' ->
      read_array (heap w') a =
        map (rng w0) (seq 0 (numel (map Z.to_nat (n :: rest)))) /\
      exists v,
        __getitem__ self idx w' = (Ok {[ "random_vector"%string := v ]}, w') /\
        contents (heap w') v =
          row_value (map Z.to_nat rest)
                    (row (map Z.to_nat rest) (Z.to_nat idx) (read_array (heap w') a)).
Proof.
  intros Hpos.
  eexists _, _, _. split; [apply init_array; exact Hpos |].
  split; [reflexivity |].
  intros idx w' Hidx Hpre. cbn [heap map] in *.
  assert (Hn : 0 <= n) by apply (Forall_inv Hpos).
  set (m := Z.to_nat n) in *.
  assert (Hi : Z.to_nat (idx mod Z.of_nat m) = Z.to_nat idx).
  { rewrite Z.mod_small by lia. reflexivity. }
  assert (Him : (Z.to_nat idx < m)%nat) by lia.
  clearbody m.
  set (rest' := map Z.to_nat rest) in *. clearbody rest'.
  set (xs := map (rng w0) (seq 0 (numel (m :: rest')))) in *.
  assert (Hlen : length xs = numel (m :: rest')).
  { subst xs. rewrite length_map, length_seq. reflexivity. }
  clearbody xs.
  set (a := NdArray (length (heap w0)) 0 (m :: rest')).
  assert (Hbase : (base a < length (heap w0 ++ [xs]))%nat).
  { cbn. rewrite length_app. cbn. lia. }
  assert (Hread : read_array (heap w') a = xs).
  { rewrite (read_array_prefix (heap w0 ++ [xs]) (heap w')) by assumption.
    apply read_array_fresh. exact Hlen. }
  split; [exact Hread |].
  unfold __getitem__, bind. cbn [raw_data transform].
  rewrite (getitem_array_inside a m rest') by (reflexivity || lia).
  rewrite Hi. unfold ret.
  destruct rest' as [| d rest'].
  - eexists. split; [reflexivity |]. cbn [contents row_value].
    f_equal.
    apply (read_elem_row (heap w') _ 0 m); [exact Him |].
    rewrite (buffer_prefix (heap w0 ++ [xs]) (heap w')) by assumption.
    cbn [base a]. rewrite buffer_fresh, Hlen. cbn. lia.
  - eexists. split; [reflexivity |]. cbn [contents row_value shape].
    f_equal.
    apply (read_row_view (heap w') _ 0 m). exact Him.
Qed.

Lemma getitem_without_transform_witness :
  exists self w a,
    __init__ [10; 5] None (World [] counting) = (Ok self, w) /\
    raw_data self = VArray a /\
    forall (idx : Z) (w' : world),
      0 <= idx < 10 ->
      heap w `prefix_of` heap w' ->
      read_array (heap w') a =
        map counting (seq 0 (numel (map Z.to_nat [10; 5]))) /\
      exists v,
        __getitem__ self idx w' = (Ok {[ "random_vector"%string := v ]}, w') /\
        contents (heap w') v =
          row_value (map Z.to_nat [5])
                    (row (map Z.to_nat [5]) (Z.to_nat idx) (read_array (heap w') a)).
Proof.
  apply (getitem_without_transform 10 [5] (World [] counting)).
  shape_ok.
Defined.

(** ** Transforms *)

(** A pipeline runs its first part, then the rest on what that returned. *)
Lemma compose_app (pre post : list callable) (s : gmap string value) (w : world) :
  Compose.__call__ (pre ++ post) s w =
  (s' <- Compose.__call__ pre s ;; Compose.__call__ post s')%py w.
Proof.
  revert s w. induction pre as [| f pre IH]; intros s w.
  - reflexivity.
  - cbn [app Compose.__call__]. unfold bind.
    destruct (f s w) as [[s1 | e] w1].
    + rewrite IH. reflexivity.
    + reflexivity.
Qed.



(** C5: when the configured transform raises on the raw sample, [get]
    ends with that very exception and the store the transform left; in a
    pipeline the first transform that raises ends it, and nothing after
    it is run. *)
Theorem transform_error_propagates
        (self : RandomVectorDataset.t) (idx : Z) (w w1 : world) (r : value) :
  np.getitem (raw_data self) idx w = (Ok r, w1) ->
  (forall (f : callable) (e : exn) (w2 : world),
      transform self = Some f ->
      f {[ "random_vector"%string := r ]} w1 = (Raise e, w2) ->
      __getitem__ self idx w = (Raise e, w2)) /\
  (forall (pre post : list callable) (f : callable)
          (s : gmap string value) (e : exn) (w2 w3 : world),
      transform self = Some (Compose.__call__ (pre ++ f :: post)) ->
      Compose.__call__ pre {[ "random_vector"%string := r ]} w1 = (Ok s, w2) ->
      f s w2 = (Raise e, w3) ->
      __getitem__ self idx w = (Raise e, w3)).
Proof.
  intros Hrow. split.
  - intros f e w2 Htr Hf.
    unfold __getitem__, bind. rewrite Hrow, Htr. exact Hf.
  - intros pre post f s e w2 w3 Htr Hpre Hf.
    unfold __getitem__, bind. rewrite Hrow, Htr.
    rewrite compose_app. unfold bind. rewrite Hpre.
    cbn [Compose.__call__]. unfold bind. rewrite Hf. reflexivity.
Qed.

Lemma transform_error_propagates_witness :
  exists self w,
    __init__ [3] (Some transformations) (World [] counting) = (Ok self, w) /\
    __getitem__ self 1 w = (Raise TypeError, w).
Proof.
  eexists _, _. split; [apply init_array; shape_ok |].
  match goal with
  | |- __getitem__ ?self 1 ?w = _ =>
      apply (proj2 (transform_error_propagates self 1 w w (VFloat64 1%float) eq_refl)
                   [Add2.__call__] [] ToTorchTensor.__call__
                   {[ "random_vector"%string := VFloat64 3%float ]} TypeError w w)
  end; reflexivity.
Defined.

(** C9: [Add2] on a sample whose vector shows [1, 1, 1, 1, 1] returns a
    sample whose vector shows [3, 3, 3, 3, 3]. *)
Theorem add2_on_ones (a : ndarray) (w : world) :
  shape a = [5%nat] ->
  read_array (heap w) a = [1; 1; 1; 1; 1]%float ->
  outcome (Add2.__call__ {[ "random_vector"%string := VArray a ]} w) =
  Ok {[ "random_vector"%string := CArray [5%nat] [3; 3; 3; 3; 3]%float ]}.
Proof.
  intros Hsh Hread.
  unfold Add2.__call__, dict_get, bind. rewrite lookup_singleton_eq.
  unfold ret at 1. unfold np.add, bind, new_array, ret. rewrite Hsh, Hread.
  cbn [outcome heap map]. unfold sample_contents.
  rewrite map_fmap_singleton. cbn [contents shape].
  rewrite read_array_fresh by reflexivity.
  reflexivity.
Qed.

Lemma add2_on_ones_witness :
  outcome (Add2.__call__ {[ "random_vector"%string := VArray (NdArray 0 0 [5%nat]) ]}
                         (World [[1; 1; 1; 1; 1]%float] zeros)) =
  Ok {[ "random_vector"%string := CArray [5%nat] [3; 3; 3; 3; 3]%float ]}.
Proof.
  apply (add2_on_ones (NdArray 0 0 [5%nat]) (World [[1; 1; 1; 1; 1]%float] zeros));
    reflexivity.
Defined.

(** ** The notebook's transforms write nothing and are deterministic *)

Lemma add2_read_only : read_only Add2.__call__.
Proof.
  intros s w. unfold Add2.__call__, dict_get, bind.
  destruct (s !! "random_vector"%string) as [[x | x | a | a] |]; cbn;
    try destruct (shape a); cbn;
    first [reflexivity | apply prefix_app_r; reflexivity].
Qed.

Lemma to_torch_tensor_read_only : read_only ToTorchTensor.__call__.
Proof.
  intros s w. unfold ToTorchTensor.__call__, dict_get, bind.
  destruct (s !! "random_vector"%string) as [[x | x | a | a] |]; cbn; reflexivity.
Qed.

#[local] Hint Resolve add2_read_only to_torch_tensor_read_only : transform.

Lemma compose_read_only (fs : list callable) :
  Forall read_only fs -> read_only (Compose.__call__ fs).
Proof.
  induction 1 as [| f fs Hf _ IH]; intros s w.
  - reflexivity.
  - cbn [Compose.__call__]. unfold bind.
    pose proof (Hf s w) as Hw.
    destruct (f s w) as [[s1 | e] w1]; cbn [snd] in *.
    + etrans; [exact Hw | apply IH].
    + exact Hw.
Qed.

Lemma transformations_read_only : read_only transformations.
Proof.
  apply compose_read_only. repeat constructor; auto with transform.
Qed.

Lemma sample_contents_lookup (h : list (list float)) (s : gmap string value) (k : string) :
  sample_contents h s !! k = contents h <$> (s !! k).
Proof. unfold sample_contents. apply lookup_fmap. Qed.

Lemma sample_contents_singleton (h : list (list float)) (k : string) (v : value) :
  sample_contents h {[ k := v ]} = {[ k := contents h v ]}.
Proof. unfold sample_contents. apply map_fmap_singleton. Qed.

Lemma add2_deterministic : deterministic Add2.__call__.
Proof.
  intros s s' w w' Heq.
  pose proof (f_equal (fun m => m !! "random_vector"%string) Heq) as Hk.
  cbn beta in Hk. rewrite !sample_contents_lookup in Hk.
  unfold Add2.__call__, dict_get, bind.
  destruct (s !! "random_vector"%string) as [[x | x | a | a] |];
    destruct (s' !! "random_vector"%string) as [[x' | x' | a' | a'] |];
    cbn in Hk; try discriminate Hk; try reflexivity;
    unfold ret at 1 3; cbn [np.add].
  - assert (x = x') as -> by congruence. reflexivity.
  - assert (x = x') as -> by congruence. reflexivity.
  - assert (Hk1 : shape a = shape a') by congruence.
    assert (Hk2 : read_array (heap w) a = read_array (heap w') a') by congruence.
    rewrite <- Hk1. destruct (shape a) as [| d sh] eqn:Hsh.
    + cbn. rewrite !sample_contents_singleton. cbn [contents].
      rewrite !read_elem_head by congruence. congruence.
    + cbn. rewrite !sample_contents_singleton. cbn [contents shape].
      rewrite !read_array_fresh_take. congruence.
  - assert (Hk1 : shape a = shape a') by congruence.
    assert (Hk2 : read_array (heap w) a = read_array (heap w') a') by congruence.
    cbn. rewrite !sample_contents_singleton. cbn [contents shape].
    rewrite !read_array_fresh_take. congruence.
Qed.

Lemma to_torch_tensor_deterministic : deterministic ToTorchTensor.__call__.
Proof.
  intros s s' w w' Heq.
  pose proof (f_equal (fun m => m !! "random_vector"%string) Heq) as Hk.
  cbn beta in Hk. rewrite !sample_contents_lookup in Hk.
  unfold ToTorchTensor.__call__, dict_get, bind.
  destruct (s !! "random_vector"%string) as [[x | x | a | a] |];
    destruct (s' !! "random_vector"%string) as [[x' | x' | a' | a'] |];
    cbn in Hk; try discriminate Hk; try reflexivity.
  inversion Hk. cbn.
  rewrite !sample_contents_singleton. cbn [contents]. congruence.
Qed.

#[local] Hint Resolve add2_deterministic to_torch_tensor_deterministic : transform.

Lemma compose_deterministic (fs : list callable) :
  Forall deterministic fs -> deterministic (Compose.__call__ fs).
Proof.
  induction 1 as [| f fs Hf _ IH]; intros s s' w w' Heq.
  - cbn. congruence.
  - cbn [Compose.__call__]. unfold bind.
    pose proof (Hf s s' w w' Heq) as Hout.
    destruct (f s w) as [[s1 | e] w1]; destruct (f s' w') as [[s1' | e'] w1'];
      cbn in Hout; try discriminate Hout.
    + apply IH. congruence.
    + exact Hout.
Qed.

Lemma transformations_deterministic : deterministic transformations.
Proof.
  apply compose_deterministic. repeat constructor; auto with transform.
Qed.

#[local] Hint Resolve transformations_read_only transformations_deterministic : transform.

(** ** The store over the life of a dataset *)

Lemma len_keeps_world (self : RandomVectorDataset.t) (w : world) :
  (__len__ self w).2 = w.
Proof.
  unfold __len__, np.shape0.
  destruct (raw_data self) as [x | x | a | a]; try reflexivity;
    destruct (shape a); reflexivity.
Qed.

Lemma np_getitem_keeps_world (v : value) (idx : Z) (w : world) :
  (np.getitem v idx w).2 = w.
Proof.
  unfold np.getitem.
  destruct v as [x | x | a | a]; try reflexivity;
    (destruct (shape a) as [| m rest]; [reflexivity |]);
    (destruct (decide (- Z.of_nat m <= idx < Z.of_nat m)); [| reflexivity]);
    try destruct rest; reflexivity.
Qed.

(** A lookup only ever extends the store, when the transform writes
    nothing. *)
Lemma getitem_extends_heap (self : RandomVectorDataset.t) (idx : Z) (w : world) :
  (forall f, transform self = Some f -> read_only f) ->
  heap w `prefix_of` heap (__getitem__ self idx w).2.
Proof.
  intros Hro. unfold __getitem__, bind.
  pose proof (np_getitem_keeps_world (raw_data self) idx w) as Hw.
  destruct (np.getitem (raw_data self) idx w) as [[r | e] w1]; cbn [snd] in Hw; subst w1.
  - destruct (transform self) as [f |] eqn:Htr.
    + apply (Hro f eq_refl).
    + reflexivity.
  - reflexivity.
Qed.

Lemma step_extends_heap (c : call) (self : RandomVectorDataset.t) (w : world) :
  (forall f, transform self = Some f -> read_only f) ->
  (step c (self, w)).1 = self /\
  heap w `prefix_of` heap (step c (self, w)).2.
Proof.
  intros Hro. destruct c as [| idx]; unfold step; cbn.
  - rewrite len_keeps_world. split; reflexivity.
  - split; [reflexivity |]. apply getitem_extends_heap. exact Hro.
Qed.

Lemma run_extends_heap (cs : list call) (self : RandomVectorDataset.t) (w : world) :
  (forall f, transform self = Some f -> read_only f) ->
  (run cs (self, w)).1 = self /\
  heap w `prefix_of` heap (run cs (self, w)).2.
Proof.
  intros Hro. revert w. induction cs as [| c cs IH]; intros w.
  - split; reflexivity.
  - unfold run. cbn [foldl]. fold (run cs (step c (self, w))).
    destruct (step_extends_heap c self w Hro) as [Hself Hpre].
    destruct (step c (self, w)) as [self1 w1]. cbn [fst snd] in *. subst self1.
    destruct (IH w1) as [Hself' Hpre'].
    split; [exact Hself' |]. etrans; eassumption.
Qed.






(** The condition on the transform is needed: rows are views, so a
    transform that adds in place rewrites the stored array. *)
Remark in_place_transform_rewrites_raw_data :
  exists self w a,
    __init__ [3; 2] (Some InPlaceAdd2.__call__) (World [] counting) = (Ok self, w) /\
    raw_data self = VArray a /\
    read_array (heap w) a = [0; 1; 2; 3; 4; 5]%float /\
    read_array (heap (__getitem__ self 1 w).2) a = [0; 1; 4; 5; 4; 5]%float.
Proof.
  eexists _, _, _. split; [apply init_array; shape_ok |].
  split; [reflexivity |]. split; reflexivity.
Qed.

(** ** Transforms that add in place *)





(** * Further properties of the notebook's classes *)

(** ** Construction: shapes and the generator *)

(** X1: with an empty shape [__init__] succeeds, keeping a single
    Python float drawn from the generator; such a dataset has no size
    ([__len__] raises AttributeError) and serves no index
    ([__getitem__] raises TypeError), whatever its transform. *)
Theorem empty_shape_dataset (tr : option callable) (w0 : world) :
  exists self w,
    __init__ [] tr w0 = (Ok self, w) /\
    raw_data self = VPyFloat (rng w0 0%nat) /\
    transform self = tr /\
    heap w = heap w0 /\
    (forall k, rng w k = rng w0 (S k)) /\
    (forall w', __len__ self w' = (Raise AttributeError, w')) /\
    (forall idx w', __getitem__ self idx w' = (Raise TypeError, w')).
Proof.
  eexists _, _. split; [reflexivity |].
  repeat split.
Qed.

(** X2: a negative dimension anywhere in a non-empty shape makes
    [__init__] raise ValueError; nothing is allocated and no number is
    drawn. *)
Theorem init_negative_dimension (d : Z) (ds : list Z) (tr : option callable) (w0 : world) :
  Exists (fun x => x < 0) (d :: ds) ->
  __init__ (d :: ds) tr w0 = (Raise ValueError, w0).
Proof.
  intros Hneg. unfold __init__, bind, np.randn.
  destruct (decide (Forall (fun x => 0 <= x) (d :: ds))) as [Hpos | _].
  - exfalso. apply Exists_exists in Hneg as (x & Hx & Hlt).
    rewrite Forall_forall in Hpos. specialize (Hpos x Hx). lia.
  - reflexivity.
Qed.

Lemma init_negative_dimension_witness :
  __init__ [10; -5] (Some transformations) w_init = (Raise ValueError, w_init).
Proof.
  apply (init_negative_dimension 10 [-5] (Some transformations) w_init).
  apply Exists_cons_tl, Exists_cons_hd. lia.
Defined.

Lemma map_seq_shift (g : nat -> float) (N M s : nat) :
  map (fun k => g (N + k)%nat) (seq s M) = map g (seq (N + s) M).
Proof.
  revert s. induction M as [| M IH]; intros s; [reflexivity |].
  cbn [seq map]. f_equal. rewrite IH. rewrite Nat.add_succ_r. reflexivity.
Qed.

(** X3: each construction draws exactly as many numbers as the array
    has elements and puts them in a buffer of its own: of two datasets
    built one after the other, the first holds the first run of draws,
    the second the run that follows, and building the second changes
    nothing of what the first holds. *)
Theorem successive_datasets
        (n1 : Z) (r1 : list Z) (tr1 : option callable)
        (n2 : Z) (r2 : list Z) (tr2 : option callable) (w0 : world) :
  Forall (fun d => 0 <= d) (n1 :: r1) ->
  Forall (fun d => 0 <= d) (n2 :: r2) ->
  exists self1 w1 a1 self2 w2 a2,
    __init__ (n1 :: r1) tr1 w0 = (Ok self1, w1) /\
    raw_data self1 = VArray a1 /\
    __init__ (n2 :: r2) tr2 w1 = (Ok self2, w2) /\
    raw_data self2 = VArray a2 /\
    base a1 <> base a2 /\
    read_array (heap w1) a1 =
      map (rng w0) (seq 0 (numel (map Z.to_nat (n1 :: r1)))) /\
    read_array (heap w2) a1 = read_array (heap w1) a1 /\
    read_array (heap w2) a2 =
      map (rng w0) (seq (numel (map Z.to_nat (n1 :: r1)))
                        (numel (map Z.to_nat (n2 :: r2)))).
Proof.
  intros Hpos1 Hpos2.
  eexists _, _, _, _, _, _.
  split; [apply init_array; exact Hpos1 |].
  split; [reflexivity |].
  split; [apply init_array; exact Hpos2 |].
  split; [reflexivity |].
  cbn [heap rng base].
  set (N1 := numel (map Z.to_nat (n1 :: r1))).
  set (N2 := numel (map Z.to_nat (n2 :: r2))).
  set (xs1 := map (rng w0) (seq 0 N1)).
  assert (Hlen1 : length xs1 = N1).
  { subst xs1. rewrite length_map, length_seq. reflexivity. }
  split; [rewrite length_app; cbn; lia |].
  split; [apply read_array_fresh; exact Hlen1 |].
  split.
  - apply read_array_prefix; [apply prefix_app_r; reflexivity |].
    cbn. rewrite length_app. cbn. lia.
  - rewrite read_array_fresh by (rewrite length_map, length_seq; reflexivity).
    rewrite map_seq_shift, Nat.add_0_r. reflexivity.
Qed.

Lemma successive_datasets_witness :
  exists self1 w1 a1 self2 w2 a2,
    __init__ [10; 5] None (World [] counting) = (Ok self1, w1) /\
    raw_data self1 = VArray a1 /\
    __init__ [10; 5] (Some transformations) w1 = (Ok self2, w2) /\
    raw_data self2 = VArray a2 /\
    base a1 <> base a2 /\
    read_array (heap w1) a1 =
      map counting (seq 0 (numel (map Z.to_nat [10; 5]))) /\
    read_array (heap w2) a1 = read_array (heap w1) a1 /\
    read_array (heap w2) a2 =
      map counting (seq (numel (map Z.to_nat [10; 5]))
                        (numel (map Z.to_nat [10; 5]))).
Proof.
  apply (successive_datasets 10 [5] None 10 [5] (Some transformations)
                             (World [] counting)); shape_ok.
Defined.

(** ** Rows of the stored array *)

Lemma concat_rows (k m : nat) (xs : list float) :
  length xs = (m * k)%nat ->
  concat (map (fun i => take k (drop (i * k) xs)) (seq 0 m)) = xs.
Proof.
  revert xs. induction m as [| m IH]; intros xs Hlen.
  - cbn in *. symmetry. apply nil_length_inv. exact Hlen.
  - cbn [seq map concat]. rewrite <- seq_shift, map_map.
    rewrite Nat.mul_0_l, drop_0.
    transitivity (take k xs ++ drop k xs); [| apply take_drop].
    f_equal.
    rewrite <- (IH (drop k xs)) by (rewrite length_drop; lia).
    f_equal. apply map_ext. intros i.
    rewrite drop_drop. reflexivity.
Qed.

Section built.

(** The array a construction leaves behind: a buffer [xs] of its own,
    allocated at the end of the store [h0], seen whole with shape
    [m :: rest]. *)
Variables (h0 : list (list float)) (m : nat) (rest : list nat) (xs : list float).
Hypothesis xs_length : length xs = numel (m :: rest).

Lemma built_base (w : world) :
  (h0 ++ [xs]) `prefix_of` heap w ->
  (base (NdArray (length h0) 0 (m :: rest)) < length (heap w))%nat.
Proof.
  intros Hpre. apply prefix_length in Hpre. rewrite length_app in Hpre.
  cbn in *. lia.
Qed.

Lemma built_buffer (w : world) :
  (h0 ++ [xs]) `prefix_of` heap w -> buffer (heap w) (length h0) = xs.
Proof.
  intros Hpre. rewrite (buffer_prefix (h0 ++ [xs]) (heap w) _ Hpre).
  - apply buffer_fresh.
  - rewrite length_app. cbn. lia.
Qed.

Lemma built_read (w : world) :
  (h0 ++ [xs]) `prefix_of` heap w ->
  read_array (heap w) (NdArray (length h0) 0 (m :: rest)) = xs.
Proof.
  intros Hpre.
  rewrite (read_array_prefix (h0 ++ [xs]) (heap w) _ Hpre).
  - apply read_array_fresh. exact xs_length.
  - cbn. rewrite length_app. cbn. lia.
Qed.

End built.

(** What the lookup returns on such an array shows row [i] of [xs]. *)
Lemma built_getitem (h0 : list (list float)) (m : nat) (rest : list nat)
      (xs : list float) (idx : Z) (w : world) :
  length xs = numel (m :: rest) ->
  (h0 ++ [xs]) `prefix_of` heap w ->
  - Z.of_nat m <= idx < Z.of_nat m ->
  exists v,
    np.getitem (VArray (NdArray (length h0) 0 (m :: rest))) idx w = (Ok v, w) /\
    contents (heap w) v =
      row_value rest (row rest (Z.to_nat (idx mod Z.of_nat m)) xs).
Proof.
  intros Hlen Hpre Hin.
  assert (Hi : (Z.to_nat (idx mod Z.of_nat m) < m)%nat).
  { pose proof (Z.mod_pos_bound idx (Z.of_nat m) ltac:(lia)). lia. }
  rewrite (getitem_array_inside (NdArray (length h0) 0 (m :: rest)) m rest idx w
             eq_refl Hin).
  eexists. split; [reflexivity |].
  rewrite <- (built_read h0 m rest xs Hlen w Hpre).
  pose proof (built_buffer h0 m rest xs Hlen w Hpre) as Hbuf.
  destruct rest as [| d rest'].
  - cbn [contents row_value]. f_equal.
    apply (read_elem_row (heap w) _ 0 m _ Hi).
    cbn [base]. rewrite Hbuf, Hlen. cbn. lia.
  - cbn [contents row_value shape]. f_equal.
    apply (read_row_view (heap w) _ 0 m _ _ Hi).
Qed.

(** Flattened, the row that indexing shows is the row itself. *)
Lemma shown_row_value (m : nat) (rest : list nat) (xs : list float) (i : nat) :
  length xs = numel (m :: rest) ->
  (i < m)%nat -> shown (row_value rest (row rest i xs)) = row rest i xs.
Proof.
  intros Hlen Hi. destruct rest as [| d rest']; [| reflexivity].
  cbn [row_value shown]. unfold row. cbn [numel foldr] in *.
  destruct (lookup_lt_is_Some_2 xs (i * 1) ltac:(lia)) as [x Hx].
  rewrite (drop_S xs x (i * 1) Hx). reflexivity.
Qed.

(** X4: the rows a dataset without transform serves for the indices
    0, 1, ..., size() - 1, put end to end, are exactly the numbers it
    was generated with, each once and in order. *)
Theorem rows_cover_the_array (n : Z) (rest : list Z) (w0 : world) :
  Forall (fun d => 0 <= d) (n :: rest) ->
  exists self w,
    __init__ (n :: rest) None w0 = (Ok self, w) /\
    forall w' : world,
      heap w `prefix_of` heap w' ->
      concat (map (fun i => shown_by (outcome (__getitem__ self (Z.of_nat i) w')))
                  (seq 0 (Z.to_nat n)))
      = map (rng w0) (seq 0 (numel (map Z.to_nat (n :: rest)))).
Proof.
  intros Hpos.
  eexists _, _. split; [apply init_array; exact Hpos |].
  intros w' Hpre. cbn [heap map] in *.
  set (m := Z.to_nat n) in *. clearbody m.
  set (rest' := map Z.to_nat rest) in *. clearbody rest'.
  set (xs := map (rng w0) (seq 0 (numel (m :: rest')))) in *.
  assert (Hlen : length xs = numel (m :: rest')).
  { subst xs. rewrite length_map, length_seq. reflexivity. }
  clearbody xs.
  transitivity (concat (map (fun i => row rest' i xs) (seq 0 m)));
    [| apply (concat_rows (numel rest') m xs); exact Hlen].
  f_equal. apply map_ext_in. intros i Hi. apply in_seq in Hi.
  unfold __getitem__, bind. cbn [raw_data transform].
  destruct (built_getitem (heap w0) m rest' xs (Z.of_nat i) w' Hlen Hpre ltac:(lia))
    as (v & Hget & Hv).
  rewrite Hget. cbn [ret outcome shown_by].
  rewrite sample_contents_singleton, lookup_singleton_eq, Hv.
  rewrite Z.mod_small, Nat2Z.id by lia.
  apply (shown_row_value m rest' xs _ Hlen). lia.
Qed.

Lemma rows_cover_the_array_witness :
  exists self w,
    __init__ [10; 5] None (World [] counting) = (Ok self, w) /\
    forall w' : world,
      heap w `prefix_of` heap w' ->
      concat (map (fun i => shown_by (outcome (__getitem__ self (Z.of_nat i) w')))
                  (seq 0 (Z.to_nat 10)))
      = map counting (seq 0 (numel (map Z.to_nat [10; 5]))).
Proof.
  apply (rows_cover_the_array 10 [5] (World [] counting)). shape_ok.
Defined.

(** X5: on a dataset of two or more dimensions without transform, the
    rows served for two different indices are windows on the stored
    array's own buffer, of the shape left after the leading dimension,
    that lie inside the stored array and do not overlap. *)
Theorem rows_are_disjoint_windows (n d : Z) (rest : list Z) (w0 : world) :
  Forall (fun x => 0 <= x) (n :: d :: rest) ->
  exists self w araw,
    __init__ (n :: d :: rest) None w0 = (Ok self, w) /\
    raw_data self = VArray araw /\
    forall (i j : Z) (w' : world),
      0 <= i < j -> j < n ->
      exists ai aj,
        __getitem__ self i w' = (Ok {[ "random_vector"%string := VArray ai ]}, w') /\
        __getitem__ self j w' = (Ok {[ "random_vector"%string := VArray aj ]}, w') /\
        base ai = base araw /\ base aj = base araw /\
        shape ai = map Z.to_nat (d :: rest) /\
        shape aj = map Z.to_nat (d :: rest) /\
        (offset ai + numel (shape ai) <= offset aj)%nat /\
        (offset aj + numel (shape aj) <= offset araw + numel (shape araw))%nat.
Proof.
  intros Hpos.
  eexists _, _, _. split; [apply init_array; exact Hpos |].
  split; [reflexivity |].
  intros i j w' Hij Hj.
  assert (Hn : 0 <= n) by apply (Forall_inv Hpos).
  unfold __getitem__, bind. cbn [raw_data transform map].
  rewrite !(getitem_array_inside _ (Z.to_nat n) (Z.to_nat d :: map Z.to_nat rest))
    by (reflexivity || lia).
  rewrite !Z.mod_small by lia.
  eexists _, _. split; [reflexivity |]. split; [reflexivity |].
  cbn [base offset shape].
  repeat split.
  - set (k := numel (Z.to_nat d :: map Z.to_nat rest)).
    assert (S (Z.to_nat i) <= Z.to_nat j)%nat by lia. nia.
  - set (k := numel (Z.to_nat d :: map Z.to_nat rest)).
    change (numel (Z.to_nat n :: Z.to_nat d :: map Z.to_nat rest))
      with (Z.to_nat n * k)%nat.
    assert (S (Z.to_nat j) <= Z.to_nat n)%nat by lia. nia.
Qed.

Lemma rows_are_disjoint_windows_witness :
  exists self w araw,
    __init__ [10; 5] None w_init = (Ok self, w) /\
    raw_data self = VArray araw /\
    forall (i j : Z) (w' : world),
      0 <= i < j -> j < 10 ->
      exists ai aj,
        __getitem__ self i w' = (Ok {[ "random_vector"%string := VArray ai ]}, w') /\
        __getitem__ self j w' = (Ok {[ "random_vector"%string := VArray aj ]}, w') /\
        base ai = base araw /\ base aj = base araw /\
        shape ai = map Z.to_nat [5] /\
        shape aj = map Z.to_nat [5] /\
        (offset ai + numel (shape ai) <= offset aj)%nat /\
        (offset aj + numel (shape aj) <= offset araw + numel (shape araw))%nat.
Proof.
  apply (rows_are_disjoint_windows 10 5 [] w_init). shape_ok.
Defined.

(** ** The transforms on their own *)

Lemma add2_call (s : gmap string value) (v : value) (w : world) :
  s !! "random_vector"%string = Some v ->
  Add2.__call__ s w =
  (v' <- np.add v 2%float ;;
   ret ({[ "random_vector"%string := v' ]} : gmap string value))%py w.
Proof. intros Hs. unfold Add2.__call__, dict_get, bind. rewrite Hs. reflexivity. Qed.

Lemma to_torch_tensor_call (s : gmap string value) (v : value) (w : world) :
  s !! "random_vector"%string = Some v ->
  ToTorchTensor.__call__ s w =
  (v' <- torch.from_numpy v ;;
   ret ({[ "random_vector"%string := v' ]} : gmap string value))%py w.
Proof. intros Hs. unfold ToTorchTensor.__call__, dict_get, bind. rewrite Hs. reflexivity. Qed.

Lemma read_array_length (h : list (list float)) (a : ndarray) :
  (length (read_array h a) <= numel (shape a))%nat.
Proof. unfold read_array. rewrite length_take. lia. Qed.

(** A fresh array filled from what another array shows, elementwise. *)
Lemma read_array_fresh_map (h : list (list float)) (a : ndarray) (f : float -> float) :
  read_array (h ++ [map f (read_array h a)]) (NdArray (length h) 0 (shape a)) =
  map f (read_array h a).
Proof.
  rewrite read_array_fresh_take. apply take_ge.
  rewrite length_map. apply read_array_length.
Qed.

(** The sum shows two more in every element, in a store that only grew. *)
Lemma np_add_two (v : value) (w : world) :
  exists v' w',
    np.add v 2%float w = (Ok v', w') /\
    contents (heap w') v' = plus2 (contents (heap w) v) /\
    heap w `prefix_of` heap w' /\
    (length (heap w') <= S (length (heap w)))%nat /\
    rng w' = rng w.
Proof.
  destruct v as [x | x | a | a]; cbn [np.add];
    [| | destruct (shape a) as [| d sh] eqn:Hsh |]; cbn;
    eexists _, _; (split; [reflexivity |]); cbn [contents plus2 heap rng shape].
  - repeat split; auto.
  - repeat split; auto.
  - rewrite Hsh. cbn [plus2]. rewrite (read_elem_head _ _ Hsh).
    repeat split; auto.
  - rewrite <- Hsh, read_array_fresh_map, Hsh. repeat split.
    + apply prefix_app_r. reflexivity.
    + rewrite length_app. cbn. lia.
  - rewrite read_array_fresh_map. repeat split.
    + apply prefix_app_r. reflexivity.
    + rewrite length_app. cbn. lia.
Qed.

(** X6: [Add2] adds 2 to every element of the vector, whatever its
    kind and shape (a zero-dimensional array comes back as a NumPy
    scalar), and hands back a new value: no array that existed before
    the call, the argument's included, shows anything else after it. *)
Theorem add2_adds_two_everywhere (s : gmap string value) (v : value) (w : world) :
  s !! "random_vector"%string = Some v ->
  outcome (Add2.__call__ s w) =
    Ok {[ "random_vector"%string := plus2 (contents (heap w) v) ]} /\
  forall a : ndarray,
    (base a < length (heap w))%nat ->
    read_array (heap (Add2.__call__ s w).2) a = read_array (heap w) a.
Proof.
  intros Hs. rewrite (add2_call s v w Hs). unfold bind.
  destruct (np_add_two v w) as (v' & w' & Hadd & Hshow & Hpre & _ & _).
  rewrite Hadd. cbn [ret outcome snd]. split.
  - rewrite sample_contents_singleton, Hshow. reflexivity.
  - intros a Ha. apply read_array_prefix; assumption.
Qed.

Lemma add2_adds_two_everywhere_witness :
  outcome (Add2.__call__
             {[ "random_vector"%string := VArray (NdArray 0 2 [2%nat]) ]}
             (World [[1; 2; 3; 4]%float] zeros)) =
    Ok {[ "random_vector"%string := CArray [2%nat] [5; 6]%float ]}.
Proof.
  refine (proj1 (add2_adds_two_everywhere
                   {[ "random_vector"%string := VArray (NdArray 0 2 [2%nat]) ]}
                   (VArray (NdArray 0 2 [2%nat]))
                   (World [[1; 2; 3; 4]%float] zeros) _)).
  apply lookup_singleton_eq.
Defined.

(** X7: on a sample without the key "random_vector" both transforms,
    and the pipeline made of them, raise KeyError and leave the store
    as it was. *)
Theorem transforms_need_the_key (s : gmap string value) (w : world) :
  s !! "random_vector"%string = None ->
  Add2.__call__ s w = (Raise KeyError, w) /\
  ToTorchTensor.__call__ s w = (Raise KeyError, w) /\
  transformations s w = (Raise KeyError, w).
Proof.
  intros Hs.
  assert (Ha : Add2.__call__ s w = (Raise KeyError, w)).
  { unfold Add2.__call__, dict_get, bind. rewrite Hs. reflexivity. }
  split; [exact Ha |]. split.
  - unfold ToTorchTensor.__call__, dict_get, bind. rewrite Hs. reflexivity.
  - unfold transformations. cbn [Compose.__call__]. unfold bind at 1.
    rewrite Ha. reflexivity.
Qed.

Lemma transforms_need_the_key_witness :
  Add2.__call__ {[ "label"%string := VPyFloat 7 ]} w_init = (Raise KeyError, w_init) /\
  ToTorchTensor.__call__ {[ "label"%string := VPyFloat 7 ]} w_init = (Raise KeyError, w_init) /\
  transformations {[ "label"%string := VPyFloat 7 ]} w_init = (Raise KeyError, w_init).
Proof.
  apply (transforms_need_the_key {[ "label"%string := VPyFloat 7 ]} w_init).
  reflexivity.
Defined.

(** X8: whatever other keys the sample carries, what [Add2],
    [ToTorchTensor] or the pipeline return has the single key
    "random_vector": every other entry is dropped. *)
Theorem transforms_keep_one_key (s s' : gmap string value) (w w' : world) :
  Add2.__call__ s w = (Ok s', w') \/
  ToTorchTensor.__call__ s w = (Ok s', w') \/
  transformations s w = (Ok s', w') ->
  exists v', s' = {[ "random_vector"%string := v' ]}.
Proof.
  assert (Hadd : forall s0 s1 w0 w1,
             Add2.__call__ s0 w0 = (Ok s1, w1) ->
             exists v', s1 = {[ "random_vector"%string := v' ]}).
  { intros s0 s1 w0 w1 H. unfold Add2.__call__, dict_get, bind in H.
    destruct (s0 !! "random_vector"%string) as [v |]; [| discriminate H].
    unfold ret at 1 in H.
    destruct (np_add_two v w0) as (v' & w2 & Hv & _). rewrite Hv in H.
    injection H as <- _. eauto. }
  assert (Htt : forall s0 s1 w0 w1,
             ToTorchTensor.__call__ s0 w0 = (Ok s1, w1) ->
             exists v', s1 = {[ "random_vector"%string := v' ]}).
  { intros s0 s1 w0 w1 H. unfold ToTorchTensor.__call__, dict_get, bind in H.
    destruct (s0 !! "random_vector"%string) as [[x | x | a | a] |];
      try discriminate H.
    injection H as <- _. eauto. }
  intros [H | [H | H]].
  - exact (Hadd _ _ _ _ H).
  - exact (Htt _ _ _ _ H).
  - unfold transformations in H. cbn [Compose.__call__] in H. unfold bind in H.
    destruct (Add2.__call__ s w) as [[s1 | e] w1]; [| discriminate H].
    destruct (ToTorchTensor.__call__ s1 w1) as [[s2 | e] w2] eqn:H2;
      [| discriminate H].
    injection H as <- _. exact (Htt _ _ _ _ H2).
Qed.

Lemma transforms_keep_one_key_witness :
  exists v',
    ({[ "random_vector"%string := VFloat64 3 ]} : gmap string value) =
    {[ "random_vector"%string := v' ]}.
Proof.
  apply (transforms_keep_one_key
           (<[ "label"%string := VPyFloat 7 ]>
              {[ "random_vector"%string := VFloat64 1 ]})
           {[ "random_vector"%string := VFloat64 3 ]} w_init w_init).
  left. reflexivity.
Defined.

(** ** The pipeline and the datasets that use it *)

(** On an array of one or more dimensions the pipeline returns a tensor
    over a fresh buffer that holds the array's elements plus 2. *)
Lemma transformations_on_array (s : gmap string value) (a : ndarray) (w : world) :
  s !! "random_vector"%string = Some (VArray a) ->
  shape a <> [] ->
  transformations s w =
  (Ok {[ "random_vector"%string := VTensor (NdArray (length (heap w)) 0 (shape a)) ]},
   World (heap w ++ [map (fun x => x + 2)%float (read_array (heap w) a)]) (rng w)).
Proof.
  intros Hs Hsh. unfold transformations. cbn [Compose.__call__]. unfold bind at 1.
  rewrite (add2_call s _ w Hs). cbn [np.add].
  destruct (shape a) as [| d sh] eqn:Ha; [contradiction |].
  unfold bind, new_array, ret.
  rewrite (to_torch_tensor_call _ (VArray (NdArray (length (heap w)) 0 (d :: sh))))
    by apply lookup_singleton_eq.
  reflexivity.
Qed.

(** On a scalar the pipeline raises TypeError without touching the store. *)
Lemma transformations_on_scalar (s : gmap string value) (x : float) (w : world) :
  s !! "random_vector"%string = Some (VFloat64 x) ->
  transformations s w = (Raise TypeError, w).
Proof.
  intros Hs. unfold transformations. cbn [Compose.__call__]. unfold bind at 1.
  rewrite (add2_call s _ w Hs). cbn [np.add]. unfold bind, ret.
  rewrite (to_torch_tensor_call _ (VFloat64 (x + 2))) by apply lookup_singleton_eq.
  reflexivity.
Qed.

(** X9: a dataset of two or more dimensions built with the notebook's
    pipeline answers every index in [-size(), size()) with a tensor of
    the row's shape over a buffer allocated by that call, holding the
    row's generated numbers plus 2; it draws no number, and the stored
    array still shows what it was generated with. *)
Theorem pipeline_getitem (n d : Z) (rest : list Z) (w0 : world) :
  Forall (fun x => 0 <= x) (n :: d :: rest) ->
  exists self w araw,
    __init__ (n :: d :: rest) (Some transformations) w0 = (Ok self, w) /\
    raw_data self = VArray araw /\
    forall (idx : Z) (w1 : world),
      heap w `prefix_of` heap w1 ->
      - n <= idx < n ->
      exists t w2,
        __getitem__ self idx w1 = (Ok {[ "random_vector"%string := VTensor t ]}, w2) /\
        base t = length (heap w1) /\
        base t <> base araw /\
        shape t = map Z.to_nat (d :: rest) /\
        heap w2 = heap w1 ++ [read_array (heap w2) t] /\
        rng w2 = rng w1 /\
        read_array (heap w2) t =
          map (fun x => x + 2)%float
              (row (map Z.to_nat (d :: rest)) (Z.to_nat (idx mod n))
                   (map (rng w0) (seq 0 (numel (map Z.to_nat (n :: d :: rest)))))) /\
        read_array (heap w2) araw =
          map (rng w0) (seq 0 (numel (map Z.to_nat (n :: d :: rest)))).
Proof.
  intros Hpos.
  eexists _, _, _. split; [apply init_array; exact Hpos |].
  split; [reflexivity |].
  intros idx w1 Hpre Hidx. cbn [heap map] in *.
  assert (Hn : 0 <= n) by apply (Forall_inv Hpos).
  set (m := Z.to_nat n) in *.
  assert (Hin : - Z.of_nat m <= idx < Z.of_nat m) by lia.
  assert (Hi : (Z.to_nat (idx mod n) < m)%nat).
  { pose proof (Z.mod_pos_bound idx n ltac:(lia)). lia. }
  assert (Hmod : idx mod Z.of_nat m = idx mod n) by (subst m; rewrite Z2Nat.id; auto).
  clearbody m.
  set (d' := Z.to_nat d) in *. clearbody d'.
  set (r' := map Z.to_nat rest) in *. clearbody r'.
  set (xs := map (rng w0) (seq 0 (numel (m :: d' :: r')))) in *.
  assert (Hlen : length xs = numel (m :: d' :: r')).
  { subst xs. rewrite length_map, length_seq. reflexivity. }
  clearbody xs.
  pose proof (built_base (heap w0) m (d' :: r') xs Hlen w1 Hpre) as Hbase.
  pose proof (built_read (heap w0) m (d' :: r') xs Hlen w1 Hpre) as Hread.
  cbn [base] in Hbase.
  unfold __getitem__, bind. cbn [raw_data transform].
  rewrite (getitem_array_inside (NdArray (length (heap w0)) 0 (m :: d' :: r'))
             m (d' :: r') idx w1 eq_refl Hin), Hmod.
  rewrite (transformations_on_array _ _ w1 (lookup_singleton_eq _ _))
    by discriminate.
  cbn [shape base offset].
  rewrite (read_row_view (heap w1) (length (heap w0)) 0 m _ (d' :: r') Hi).
  rewrite Hread.
  set (ys := map (fun x => x + 2)%float (row (d' :: r') (Z.to_nat (idx mod n)) xs)).
  assert (Hys : read_array (heap w1 ++ [ys]) (NdArray (length (heap w1)) 0 (d' :: r')) = ys).
  { apply read_array_fresh. subst ys. rewrite length_map. unfold row.
    rewrite length_take, length_drop.
    change (numel (m :: d' :: r')) with (m * numel (d' :: r'))%nat in Hlen. nia. }
  eexists _, _. split; [reflexivity |]. cbn [base shape heap rng].
  rewrite Hys.
  repeat split; try reflexivity.
  - lia.
  - rewrite (read_array_prefix (heap w1)); [exact Hread | |].
    + apply prefix_app_r. reflexivity.
    + exact Hbase.
Qed.

Lemma pipeline_getitem_witness :
  exists self w araw,
    __init__ [10; 5] (Some transformations) (World [] counting) = (Ok self, w) /\
    raw_data self = VArray araw /\
    forall (idx : Z) (w1 : world),
      heap w `prefix_of` heap w1 ->
      - 10 <= idx < 10 ->
      exists t w2,
        __getitem__ self idx w1 = (Ok {[ "random_vector"%string := VTensor t ]}, w2) /\
        base t = length (heap w1) /\
        base t <> base araw /\
        shape t = map Z.to_nat [5] /\
        heap w2 = heap w1 ++ [read_array (heap w2) t] /\
        rng w2 = rng w1 /\
        read_array (heap w2) t =
          map (fun x => x + 2)%float
              (row (map Z.to_nat [5]) (Z.to_nat (idx mod 10))
                   (map counting (seq 0 (numel (map Z.to_nat [10; 5]))))) /\
        read_array (heap w2) araw =
          map counting (seq 0 (numel (map Z.to_nat [10; 5]))).
Proof.
  apply (pipeline_getitem 10 5 [] (World [] counting)). shape_ok.
Defined.

(** X10: a one-dimensional dataset built with the notebook's pipeline
    serves no sample at all: inside [-size(), size()) the row is a
    scalar, which [torch.from_numpy] refuses with TypeError, and
    outside it the lookup raises IndexError; the store is never
    touched. *)
Theorem one_dimensional_pipeline_never_serves (n : Z) (w0 : world) :
  0 <= n ->
  exists self w,
    __init__ [n] (Some transformations) w0 = (Ok self, w) /\
    forall (idx : Z) (w1 : world),
      (- n <= idx < n -> __getitem__ self idx w1 = (Raise TypeError, w1)) /\
      (idx < - n \/ n <= idx -> __getitem__ self idx w1 = (Raise IndexError, w1)).
Proof.
  intros Hn.
  assert (Hpos : Forall (fun d => 0 <= d) [n]) by (repeat constructor; exact Hn).
  eexists _, _. split; [apply init_array; exact Hpos |].
  intros idx w1. cbn [map]. split.
  - intros Hin. unfold __getitem__, bind. cbn [raw_data transform].
    rewrite (getitem_array_inside (NdArray (length (heap w0)) 0 [Z.to_nat n])
               (Z.to_nat n) [] idx w1 eq_refl) by lia.
    eapply transformations_on_scalar. apply lookup_singleton_eq.
  - intros Hout. unfold __getitem__, bind. cbn [raw_data transform].
    erewrite (np_getitem_outside _ _ (Z.to_nat n) [] idx w1);
      [reflexivity | left; reflexivity | reflexivity | lia].
Qed.

Lemma one_dimensional_pipeline_never_serves_witness :
  exists self w,
    __init__ [3] (Some transformations) w_init = (Ok self, w) /\
    forall (idx : Z) (w1 : world),
      (- 3 <= idx < 3 -> __getitem__ self idx w1 = (Raise TypeError, w1)) /\
      (idx < - 3 \/ 3 <= idx -> __getitem__ self idx w1 = (Raise IndexError, w1)).
Proof.
  apply (one_dimensional_pipeline_never_serves 3 w_init). lia.
Defined.

(** X11: with [ToTorchTensor] alone as transform, a dataset of two or
    more dimensions copies nothing: the tensor it serves is a window
    on the stored array's own buffer, the store is left as it was, and
    the tensor shows the row's generated numbers. *)
Theorem to_torch_tensor_serves_views (n d : Z) (rest : list Z) (w0 : world) :
  Forall (fun x => 0 <= x) (n :: d :: rest) ->
  exists self w araw,
    __init__ (n :: d :: rest) (Some ToTorchTensor.__call__) w0 = (Ok self, w) /\
    raw_data self = VArray araw /\
    forall (idx : Z) (w1 : world),
      heap w `prefix_of` heap w1 ->
      - n <= idx < n ->
      exists t,
        __getitem__ self idx w1 = (Ok {[ "random_vector"%string := VTensor t ]}, w1) /\
        base t = base araw /\
        shape t = map Z.to_nat (d :: rest) /\
        (offset araw <= offset t)%nat /\
        (offset t + numel (shape t) <= offset araw + numel (shape araw))%nat /\
        read_array (heap w1) t =
          row (map Z.to_nat (d :: rest)) (Z.to_nat (idx mod n))
              (map (rng w0) (seq 0 (numel (map Z.to_nat (n :: d :: rest))))).
Proof.
  intros Hpos.
  eexists _, _, _. split; [apply init_array; exact Hpos |].
  split; [reflexivity |].
  intros idx w1 Hpre Hidx. cbn [heap map] in *.
  assert (Hn : 0 <= n) by apply (Forall_inv Hpos).
  set (m := Z.to_nat n) in *.
  assert (Hin : - Z.of_nat m <= idx < Z.of_nat m) by lia.
  assert (Hi : (Z.to_nat (idx mod n) < m)%nat).
  { pose proof (Z.mod_pos_bound idx n ltac:(lia)). lia. }
  assert (Hmod : idx mod Z.of_nat m = idx mod n) by (subst m; rewrite Z2Nat.id; auto).
  clearbody m.
  set (d' := Z.to_nat d) in *. clearbody d'.
  set (r' := map Z.to_nat rest) in *. clearbody r'.
  set (xs := map (rng w0) (seq 0 (numel (m :: d' :: r')))) in *.
  assert (Hlen : length xs = numel (m :: d' :: r')).
  { subst xs. rewrite length_map, length_seq. reflexivity. }
  clearbody xs.
  pose proof (built_read (heap w0) m (d' :: r') xs Hlen w1 Hpre) as Hread.
  unfold __getitem__, bind. cbn [raw_data transform].
  rewrite (getitem_array_inside (NdArray (length (heap w0)) 0 (m :: d' :: r'))
             m (d' :: r') idx w1 eq_refl Hin), Hmod.
  rewrite (to_torch_tensor_call _ _ w1 (lookup_singleton_eq _ _)).
  cbn [torch.from_numpy]. unfold bind, ret. cbn [base offset shape].
  eexists. split; [reflexivity |]. cbn [base offset shape].
  repeat split; try lia.
  - change (numel (m :: d' :: r')) with (m * numel (d' :: r'))%nat. nia.
  - rewrite (read_row_view (heap w1) (length (heap w0)) 0 m _ (d' :: r') Hi).
    rewrite Hread. reflexivity.
Qed.

Lemma to_torch_tensor_serves_views_witness :
  exists self w araw,
    __init__ [10; 5] (Some ToTorchTensor.__call__) (World [] counting) = (Ok self, w) /\
    raw_data self = VArray araw /\
    forall (idx : Z) (w1 : world),
      heap w `prefix_of` heap w1 ->
      - 10 <= idx < 10 ->
      exists t,
        __getitem__ self idx w1 = (Ok {[ "random_vector"%string := VTensor t ]}, w1) /\
        base t = base araw /\
        shape t = map Z.to_nat [5] /\
        (offset araw <= offset t)%nat /\
        (offset t + numel (shape t) <= offset araw + numel (shape araw))%nat /\
        read_array (heap w1) t =
          row (map Z.to_nat [5]) (Z.to_nat (idx mod 10))
              (map counting (seq 0 (numel (map Z.to_nat [10; 5])))).
Proof.
  apply (to_torch_tensor_serves_views 10 5 [] (World [] counting)). shape_ok.
Defined.

(** ** How the transforms compose *)

Lemma transforms_need_the_key_aux (s : gmap string value) (w : world) :
  s !! "random_vector"%string = None ->
  Add2.__call__ s w = (Raise KeyError, w) /\
  ToTorchTensor.__call__ s w = (Raise KeyError, w) /\
  transformations s w = (Raise KeyError, w).
Proof.
  intros Hs. unfold transformations, Add2.__call__, ToTorchTensor.__call__.
  cbn [Compose.__call__]. unfold dict_get, bind. rewrite Hs. auto.
Qed.


(** Runs the transforms on a sample whose "random_vector" entry is known. *)
Ltac py :=
  repeat (progress (cbv [transformations Add2.__call__ ToTorchTensor.__call__
                         Compose.__call__ dict_get bind ret raise new_array
                         np.add torch.from_numpy];
                    rewrite ?lookup_singleton_eq)).

(** X12: neither [ToTorchTensor] nor the pipeline can be applied to its
    own result: run twice in a row on any sample, each ends in an
    exception, and whenever the first run returns a sample the second
    raises TypeError, for what it is handed is a tensor, not an
    ndarray. *)
Theorem pipeline_cannot_be_repeated (s : gmap string value) (w : world) :
  (exists e w',
      Compose.__call__ [ToTorchTensor.__call__; ToTorchTensor.__call__] s w
        = (Raise e, w')) /\
  (forall s1 w1,
      ToTorchTensor.__call__ s w = (Ok s1, w1) ->
      ToTorchTensor.__call__ s1 w1 = (Raise TypeError, w1)) /\
  (exists e w',
      Compose.__call__ [transformations; transformations] s w = (Raise e, w')) /\
  (forall s1 w1,
      transformations s w = (Ok s1, w1) ->
      exists w2, transformations s1 w1 = (Raise TypeError, w2)).
Proof.
  assert (Htt : forall s1 w1,
             ToTorchTensor.__call__ s w = (Ok s1, w1) ->
             ToTorchTensor.__call__ s1 w1 = (Raise TypeError, w1)).
  { intros s1 w1 H. unfold ToTorchTensor.__call__, dict_get, bind in H.
    destruct (s !! "random_vector"%string) as [[x | x | a | a] |];
      try discriminate H.
    injection H as <- <-. py. reflexivity. }
  assert (Hpipe : forall s1 w1,
             transformations s w = (Ok s1, w1) ->
             exists w2, transformations s1 w1 = (Raise TypeError, w2)).
  { intros s1 w1 H.
    destruct (s !! "random_vector"%string) as [[x | x | a | a] |] eqn:Hs.
    - revert H. py. rewrite Hs. py. discriminate.
    - rewrite (transformations_on_scalar s x w Hs) in H. discriminate H.
    - destruct (shape a) as [| d sh] eqn:Ha.
      + revert H. py. rewrite Hs. py. rewrite Ha. py. discriminate.
      + rewrite (transformations_on_array s a w Hs) in H by congruence.
        injection H as <- <-. py. eexists. reflexivity.
    - revert H. py. rewrite Hs. py. discriminate.
    - destruct (transforms_need_the_key_aux s w Hs) as (_ & _ & Hk).
      rewrite Hk in H. discriminate H. }
  split; [| split; [exact Htt | split; [| exact Hpipe]]].
  - cbn [Compose.__call__]. unfold bind at 1.
    destruct (ToTorchTensor.__call__ s w) as [[s1 | e] w1] eqn:H1.
    + unfold bind, ret. rewrite (Htt s1 w1 eq_refl). eauto.
    + eauto.
  - cbn [Compose.__call__]. unfold bind at 1.
    destruct (transformations s w) as [[s1 | e] w1] eqn:H1.
    + unfold bind, ret. destruct (Hpipe s1 w1 eq_refl) as [w2 H2].
      rewrite H2. eauto.
    + eauto.
Qed.

Lemma pipeline_cannot_be_repeated_witness :
  ToTorchTensor.__call__
    {[ "random_vector"%string := VTensor (NdArray 0 0 [2%nat]) ]}
    (World [[1; 2]%float] zeros)
  = (Raise TypeError, World [[1; 2]%float] zeros).
Proof.
  apply (proj1 (proj2 (pipeline_cannot_be_repeated
                         {[ "random_vector"%string := VArray (NdArray 0 0 [2%nat]) ]}
                         (World [[1; 2]%float] zeros)))).
  reflexivity.
Defined.

(** X13: on the rows of a dataset [Add2] and [ToTorchTensor] may be
    swapped: built from the same numbers, a dataset with the pipeline
    [Add2, ToTorchTensor] and one with [ToTorchTensor, Add2] show the
    caller the same tensor, or raise the same exception, at every
    index. *)
Theorem add2_and_to_torch_tensor_commute (n : Z) (rest : list Z) (w0 : world) :
  Forall (fun d => 0 <= d) (n :: rest) ->
  exists self self' w,
    __init__ (n :: rest)
             (Some (Compose.__call__ [Add2.__call__; ToTorchTensor.__call__])) w0
      = (Ok self, w) /\
    __init__ (n :: rest)
             (Some (Compose.__call__ [ToTorchTensor.__call__; Add2.__call__])) w0
      = (Ok self', w) /\
    raw_data self' = raw_data self /\
    forall (idx : Z) (w1 : world),
      outcome (__getitem__ self idx w1) = outcome (__getitem__ self' idx w1).
Proof.
  intros Hpos.
  eexists _, _, _. split; [apply init_array; exact Hpos |].
  split; [apply init_array; exact Hpos |].
  split; [reflexivity |].
  intros idx w1. cbn [map].
  set (m := Z.to_nat n). set (r := map Z.to_nat rest).
  unfold __getitem__, bind. cbn [raw_data transform].
  destruct (decide (- Z.of_nat m <= idx < Z.of_nat m)) as [Hin | Hout].
  - rewrite (getitem_array_inside (NdArray (length (heap w0)) 0 (m :: r)) m r idx w1
               eq_refl Hin).
    destruct r as [| d r']; py; reflexivity.
  - erewrite (np_getitem_outside _ _ m r idx w1);
      [reflexivity | left; reflexivity | reflexivity | lia].
Qed.

Lemma add2_and_to_torch_tensor_commute_witness :
  exists self self' w,
    __init__ [10; 5]
             (Some (Compose.__call__ [Add2.__call__; ToTorchTensor.__call__])) w_init
      = (Ok self, w) /\
    __init__ [10; 5]
             (Some (Compose.__call__ [ToTorchTensor.__call__; Add2.__call__])) w_init
      = (Ok self', w) /\
    raw_data self' = raw_data self /\
    forall (idx : Z) (w1 : world),
      outcome (__getitem__ self idx w1) = outcome (__getitem__ self' idx w1).
Proof.
  apply (add2_and_to_torch_tensor_commute 10 [5] w_init). shape_ok.
Defined.

(** X14: pipelines compose as lists do.  A dataset given the empty
    pipeline behaves as one given no transform; a pipeline of one
    transform is that transform; a pipeline of two pipelines is the
    pipeline of their transforms, one list after the other. *)
Theorem pipelines_compose :
  (forall (raw : value) (idx : Z) (w : world),
      __getitem__ (Build raw (Some (Compose.__call__ []))) idx w =
      __getitem__ (Build raw None) idx w) /\
  (forall (f : callable) (s : gmap string value) (w : world),
      Compose.__call__ [f] s w = f s w) /\
  (forall (fs gs : list callable) (s : gmap string value) (w : world),
      Compose.__call__ [Compose.__call__ fs; Compose.__call__ gs] s w =
      Compose.__call__ (fs ++ gs) s w).
Proof.
  split; [| split].
  - intros raw idx w. unfold __getitem__, bind. cbn [raw_data transform].
    destruct (np.getitem raw idx w) as [[r | e] w1]; reflexivity.
  - intros f s w. cbn [Compose.__call__]. unfold bind, ret.
    destruct (f s w) as [[s1 | e] w1]; reflexivity.
  - intros fs gs s w. rewrite compose_app. cbn [Compose.__call__]. unfold bind, ret.
    destruct (Compose.__call__ fs s w) as [[s1 | e] w1]; [| reflexivity].
    destruct (Compose.__call__ gs s1 w1) as [[s2 | e] w2]; reflexivity.
Qed.

(** X16: the notebook's transforms write to nothing they are handed.
    [ToTorchTensor] leaves the store exactly as it was; [Add2] and the
    pipeline draw no number, change no buffer that existed before the
    call, and allocate at most one. *)
Theorem notebook_transforms_write_nothing (s : gmap string value) (w : world) :
  (ToTorchTensor.__call__ s w).2 = w /\
  (rng (Add2.__call__ s w).2 = rng w /\
   heap w `prefix_of` heap (Add2.__call__ s w).2 /\
   (length (heap (Add2.__call__ s w).2) <= S (length (heap w)))%nat) /\
  (rng (transformations s w).2 = rng w /\
   heap w `prefix_of` heap (transformations s w).2 /\
   (length (heap (transformations s w).2) <= S (length (heap w)))%nat).
Proof.
  assert (Htt : forall s0 w0, (ToTorchTensor.__call__ s0 w0).2 = w0).
  { intros s0 w0. unfold ToTorchTensor.__call__, dict_get, bind.
    destruct (s0 !! "random_vector"%string) as [[x | x | a | a] |]; reflexivity. }
  assert (Hadd : rng (Add2.__call__ s w).2 = rng w /\
                 heap w `prefix_of` heap (Add2.__call__ s w).2 /\
                 (length (heap (Add2.__call__ s w).2) <= S (length (heap w)))%nat).
  { destruct (s !! "random_vector"%string) as [v |] eqn:Hs.
    - rewrite (add2_call s v w Hs). unfold bind.
      destruct (np_add_two v w) as (v' & w' & Hv & _ & Hpre & Hlen & Hrng).
      rewrite Hv. cbn [ret snd]. auto.
    - unfold Add2.__call__, dict_get, bind. rewrite Hs. cbn. auto. }
  split; [apply Htt |]. split; [exact Hadd |].
  unfold transformations. cbn [Compose.__call__]. unfold bind.
  destruct (Add2.__call__ s w) as [[s1 | e] w1]; cbn [snd] in Hadd.
  - pose proof (Htt s1 w1) as H1.
    destruct (ToTorchTensor.__call__ s1 w1) as [[s2 | e] w2];
      cbn [snd ret] in *; subst w2; exact Hadd.
  - exact Hadd.
Qed.

(** ** Samples after they were served *)

(** What was served lives in allocated buffers. *)
Lemma served_is_allocated (m : nat) (rest : list nat) (tr : option callable)
      (h0 : list (list float)) (idx : Z) (w1 w2 : world) (s : gmap string value) :
  tr = None \/ tr = Some ToTorchTensor.__call__ \/ tr = Some transformations ->
  (length h0 < length (heap w1))%nat ->
  __getitem__ (Build (VArray (NdArray (length h0) 0 (m :: rest))) tr) idx w1 = (Ok s, w2) ->
  exists v,
    s = {[ "random_vector"%string := v ]} /\
    match v with
    | VArray t | VTensor t => (base t < length (heap w2))%nat
    | VPyFloat _ | VFloat64 _ => True
    end.
Proof.
  intros Htr Hbase Hget.
  unfold __getitem__, bind in Hget. cbn [raw_data transform] in Hget.
  destruct (decide (- Z.of_nat m <= idx < Z.of_nat m)) as [Hin | Hout].
  - rewrite (getitem_array_inside (NdArray (length h0) 0 (m :: rest)) m rest idx w1
               eq_refl Hin) in Hget.
    cbn [base offset] in Hget.
    destruct rest as [| d r']; destruct Htr as [-> | [-> | ->]].
    + injection Hget as <- <-. eexists. split; [reflexivity | exact I].
    + rewrite (to_torch_tensor_call _ _ w1 (lookup_singleton_eq _ _)) in Hget.
      discriminate Hget.
    + rewrite (transformations_on_scalar _ _ w1 (lookup_singleton_eq _ _)) in Hget.
      discriminate Hget.
    + injection Hget as <- <-. eexists. split; [reflexivity | exact Hbase].
    + rewrite (to_torch_tensor_call _ _ w1 (lookup_singleton_eq _ _)) in Hget.
      injection Hget as <- <-. eexists. split; [reflexivity | exact Hbase].
    + rewrite (transformations_on_array _ _ w1 (lookup_singleton_eq _ _)) in Hget
        by discriminate.
      injection Hget as <- <-. eexists. split; [reflexivity |].
      cbn. rewrite length_app. cbn. lia.
  - erewrite (np_getitem_outside _ _ m rest idx w1) in Hget;
      [discriminate Hget | left; reflexivity | reflexivity | lia].
Qed.

(** X15: a sample served by one of the notebook's datasets (no
    transform, [ToTorchTensor] alone, or the pipeline) keeps showing
    what it showed when it was returned, whatever [size] and [get]
    calls are made on the dataset afterwards. *)
Theorem served_samples_stay_as_served
        (n : Z) (rest : list Z) (tr : option callable) (w0 : world) :
  Forall (fun d => 0 <= d) (n :: rest) ->
  tr = None \/ tr = Some ToTorchTensor.__call__ \/ tr = Some transformations ->
  exists self w,
    __init__ (n :: rest) tr w0 = (Ok self, w) /\
    forall (idx : Z) (w1 w2 : world) (s : gmap string value),
      heap w `prefix_of` heap w1 ->
      __getitem__ self idx w1 = (Ok s, w2) ->
      forall cs : list call,
        sample_contents (heap (run cs (self, w2)).2) s = sample_contents (heap w2) s.
Proof.
  intros Hpos Htr.
  eexists _, _. split; [apply init_array; exact Hpos |].
  intros idx w1 w2 s Hpre Hget cs. cbn [heap map] in *.
  assert (Hbase : (length (heap w0) < length (heap w1))%nat).
  { apply prefix_length in Hpre. rewrite length_app in Hpre. cbn in Hpre. lia. }
  destruct (served_is_allocated _ _ tr (heap w0) idx w1 w2 s Htr Hbase Hget)
    as (v & -> & Hv).
  match goal with
  | |- context [run cs (?self, w2)] =>
      assert (Hext : heap w2 `prefix_of` heap (run cs (self, w2)).2)
  end.
  { apply run_extends_heap. cbn [transform]. intros f Hf.
    destruct Htr as [-> | [-> | ->]]; [discriminate Hf | |];
      injection Hf as <-; auto with transform. }
  rewrite !sample_contents_singleton. f_equal.
  destruct v as [x | x | t | t]; cbn [contents]; try reflexivity;
    f_equal; apply read_array_prefix; assumption.
Qed.

Lemma served_samples_stay_as_served_witness :
  exists self w,
    __init__ [10; 5] (Some transformations) w_init = (Ok self, w) /\
    forall (idx : Z) (w1 w2 : world) (s : gmap string value),
      heap w `prefix_of` heap w1 ->
      __getitem__ self idx w1 = (Ok s, w2) ->
      forall cs : list call,
        sample_contents (heap (run cs (self, w2)).2) s = sample_contents (heap w2) s.
Proof.
  apply (served_samples_stay_as_served 10 [5] (Some transformations) w_init).
  - shape_ok.
  - right. right. reflexivity.
Defined.
